(** * Task board: status lanes and drag-and-drop reassignment

    A shallow embedding of the board logic of
    [src/app/(main)/dashboard/task/[TaskId]/page.tsx]:

    - [tasksByStatus], the four [filter] calls that split the task array
      into the lanes of the board (lines 164-172);
    - [moveTask], the state updater run when a card is dropped on a lane
      (lines 156-162);
    - [fetchTasks], the effect that fills the task array after mounting
      (lines 174-188), and the render of [DashboardContent] that reads it;
    - [Page], which resolves the route parameter and mounts the board
      (lines 236-274);
    - [DraggableTask] and [TaskColumn], the card and the column of the
      board with its drop handler (lines 22-149), and the four columns
      [DashboardContent] lays out (lines 203-229).

    JavaScript arrays are lists, JavaScript strings are [string], and a
    React state cell is a field of an explicit state record that the
    setters rewrite. *)

From stdpp Require Import base decidable option list strings.
From Stdlib Require Import ZArith.

Local Open Scope string_scope.

(** ** Data model *)

(** Modelled from the spec: the declarations of [Task] and [TaskMain] in
    [@/types] are not part of the source tree.  The fields are the ones
    the page reads ([task.id], [task.title], [task.deadline],
    [task.description], [task.status], [task.assignees] with [id] and
    [name], and the optional [task.subTasks] with [title]); the spec's data
    model lists the same ones.  [status] is a plain string: [moveTask]
    stores a [newStatus : string] into it, and the card styles read it
    through the cast [task.status as TaskStatus]. *)
Module Assignee.
Record t : Type := mk { id : string; name : string }.
End Assignee.

Module SubTask.
Record t : Type := mk { title : string }.
End SubTask.

Module Task.
Record t : Type := mk {
  id : string;
  title : string;
  description : string;
  deadline : Z;
  status : string;
  assignees : list Assignee.t;
  subTasks : option (list SubTask.t)
}.
End Task.

Abbreviation Task := Task.t.

(** [type TaskStatus = "TODO" | "IN_PROGRESS" | "COMPLETED" | "BACKLOG"]
    (line 20). *)
Inductive TaskStatus : Type := TODO | IN_PROGRESS | COMPLETED | BACKLOG.

(** The string literal each member of the union stands for. *)
Definition status_literal (s : TaskStatus) : string :=
  match s with
  | TODO => "TODO"
  | IN_PROGRESS => "IN_PROGRESS"
  | COMPLETED => "COMPLETED"
  | BACKLOG => "BACKLOG"
  end.

(** A status string belongs to the taxonomy when it is one of the four
    literals. *)
Definition in_taxonomy (s : string) : Prop := ∃ S, s = status_literal S.

(** ** The partition into lanes *)

(** The object built inside [useMemo] (lines 165-170). *)
Record Lanes : Type := mkLanes {
  todo : list Task;
  inProgress : list Task;
  completed : list Task;
  backlog : list Task
}.

(** [tasks.filter((task) => task.status === "...")], once per lane. *)
Definition tasksByStatus (tasks : list Task) : Lanes :=
  {| todo := filter (λ task, Task.status task = "TODO") tasks;
     inProgress := filter (λ task, Task.status task = "IN_PROGRESS") tasks;
     completed := filter (λ task, Task.status task = "COMPLETED") tasks;
     backlog := filter (λ task, Task.status task = "BACKLOG") tasks |}.

(** The lane a [TaskColumn] of the given status receives as its [tasks]
    prop (lines 204-229): [status="TODO"] gets [tasksByStatus.todo], and
    so on. *)
Definition lane (S : TaskStatus) (p : Lanes) : list Task :=
  match S with
  | TODO => todo p
  | IN_PROGRESS => inProgress p
  | COMPLETED => completed p
  | BACKLOG => backlog p
  end.

(** ** Reassignment *)

(** [{ ...t, status: newStatus }]: a copy of [t] with one field replaced. *)
Definition with_status (t : Task) (newStatus : string) : Task :=
  {| Task.id := Task.id t;
     Task.title := Task.title t;
     Task.description := Task.description t;
     Task.deadline := Task.deadline t;
     Task.status := newStatus;
     Task.assignees := Task.assignees t;
     Task.subTasks := Task.subTasks t |}.

(** [moveTask(task, newStatus)] hands React the updater
    [prevTasks => prevTasks.map(t => t.id === task.id ? {...t, status: newStatus} : t)];
    the function below is that updater, with the store it is applied to
    as last argument. *)
Definition moveTask (task : Task) (newStatus : string) (prevTasks : list Task) : list Task :=
  (λ t, if decide (Task.id t = Task.id task) then with_status t newStatus else t)
    <$> prevTasks.

(** The fields a drop leaves alone. *)
Definition same_but_status (t t' : Task) : Prop :=
  Task.id t' = Task.id t
  ∧ Task.title t' = Task.title t
  ∧ Task.description t' = Task.description t
  ∧ Task.deadline t' = Task.deadline t
  ∧ Task.assignees t' = Task.assignees t
  ∧ Task.subTasks t' = Task.subTasks t.

(** A plain task carrying only an identifier and a status, for examples. *)
Definition card (i s : string) : Task :=
  Task.mk i "" "" 0 s [] None.

(** ** The memoised partition *)

(** A JavaScript array object: its identity (the number of the allocation
    that made it) and its elements.  [useMemo] compares dependencies with
    [Object.is], that is by identity. *)
Record TaskArray : Type := mkArray { ref : nat; elems : list Task }.

Definition Object_is (a b : TaskArray) : bool := bool_decide (ref a = ref b).

(** What the hook remembers between renders: the dependency it last saw
    and the value computed from it. *)
Definition MemoCell : Type := option (TaskArray * Lanes).

(** [useMemo(() => ({...}), [tasks])] (lines 164-172): the factory runs on
    the first render and whenever [tasks] is not the array of the last
    render; otherwise the remembered value is returned. *)
Definition useMemo (cell : MemoCell) (tasks : TaskArray) : Lanes * MemoCell :=
  match cell with
  | Some (dep, value) =>
      if Object_is dep tasks then (value, cell)
      else let value' := tasksByStatus (elems tasks) in (value', Some (tasks, value'))
  | None => let value' := tasksByStatus (elems tasks) in (value', Some (tasks, value'))
  end.

(** A mounted [DashboardContent] as far as the partition goes: the array
    in the [tasks] cell, the number the next allocated array will get,
    and the cell of the hook. *)
Record Component : Type := mkComponent {
  store : TaskArray;
  next_ref : nat;
  memo : MemoCell
}.

(** [setTasks] with an array that was just allocated ([map] and the
    fetched record both hand over a new one). *)
Definition setTasks_fresh (l : list Task) (c : Component) : Component :=
  {| store := mkArray (next_ref c) l; next_ref := S (next_ref c); memo := memo c |}.

(** One render: the lanes handed to the columns, and the component with
    the cell of the hook updated. *)
Definition render (c : Component) : Lanes * Component :=
  let '(lanes, cell) := useMemo (memo c) (store c) in
  (lanes, {| store := store c; next_ref := next_ref c; memo := cell |}).

(** What makes the component render again: another state cell changed
    ([setLoading], [setError]), the fetch delivered its array, a card was
    dropped on a lane, or React threw the remembered value away. *)
Inductive Event : Type :=
  | Rerender
  | Loaded (subTasks : list Task)
  | Dropped (task : Task) (newStatus : string)
  | Discarded.

Definition step (c : Component) (e : Event) : Component :=
  let c' :=
    match e with
    | Rerender => c
    | Loaded subTasks => setTasks_fresh subTasks c
    | Dropped task newStatus => setTasks_fresh (moveTask task newStatus (elems (store c))) c
    | Discarded => {| store := store c; next_ref := next_ref c; memo := None |}
    end in
  (render c').2.

(** [useState<Task[]>([])] and the first render. *)
Definition mounted : Component :=
  (render {| store := mkArray 0 []; next_ref := 1; memo := None |}).2.

Definition after (events : list Event) : Component := foldl step mounted events.

(** The lanes the columns receive on a render in state [c]. *)
Definition shown (c : Component) : Lanes := (render c).1.

(** The cell of the hook is sound when the value it remembers was
    computed from the array it remembers, and that array, if it has the
    identity of the stored one, is the stored one. *)
Definition component_ok (c : Component) : Prop :=
  ref (store c) < next_ref c
  ∧ match memo c with
    | None => True
    | Some (dep, value) =>
        value = tasksByStatus (elems dep)
        ∧ ref dep < next_ref c
        ∧ (ref dep = ref (store c) → dep = store c)
    end.

(** ** The store and its initialisation *)

(** The value held by the [tasks] state cell.  It is declared as
    [Task[]], but [setTasks(data.subTasks as any)] stores whatever the
    fetched record holds, which for a missing field is [undefined]. *)
Inductive TasksValue : Type := undefined | array (l : list Task).

(** Modelled from the spec: [TaskMain] of [@/types] is not part of the
    source tree; these are the fields the page reads from the fetched
    record ([title], [description], [status], [subTasks]). *)
Module TaskMain.
Record t : Type := mk {
  title : string;
  description : string;
  status : string;
  subTasks : TasksValue
}.
End TaskMain.

Abbreviation TaskMain := TaskMain.t.

(** How an awaited [getTaskById(id)] ends: the promise rejects, or it
    resolves to [null] or to a record.  [getTaskById] of [@/actions/task]
    is an outside collaborator; its answers are inputs here. *)
Inductive FetchResult : Type :=
  | Rejected
  | Resolved (data : option TaskMain).

(** The three [useState] cells of [DashboardContent] (lines 152-154). *)
Record BoardState : Type := mkBoard {
  tasks : TasksValue;
  loading : bool;
  error : option string
}.

Definition initial_board : BoardState :=
  {| tasks := array []; loading := true; error := None |}.

Definition setTasks (v : TasksValue) (s : BoardState) : BoardState :=
  {| tasks := v; loading := loading s; error := error s |}.

Definition setLoading (b : bool) (s : BoardState) : BoardState :=
  {| tasks := tasks s; loading := b; error := error s |}.

Definition setError (msg : string) (s : BoardState) : BoardState :=
  {| tasks := tasks s; loading := loading s; error := Some msg |}.

(** The body of [fetchTasks] after the [await] (lines 176-184).  Reading
    [data.subTasks] of [null] throws inside the [try], so that case joins
    the rejected promise in the [catch]; [finally] runs in every case. *)
Definition fetchTasks (r : FetchResult) (s : BoardState) : BoardState :=
  let s' :=
    match r with
    | Resolved (Some data) => setTasks (TaskMain.subTasks data) s
    | Resolved None | Rejected => setError "An error occurred while fetching tasks." s
    end in
  setLoading false s'.

(** What a render of [DashboardContent] comes to. *)
Inductive BoardView : Type :=
  | TypeError (msg : string)
  | LoadingView
  | ErrorView (msg : string)
  | Board (lanes : Lanes).

(** A render of [DashboardContent] (lines 164-233).  The [useMemo] factory
    runs before the early returns, and [tasks.filter] on [undefined]
    throws; only then are [loading] and [error] looked at. *)
Definition DashboardContent_render (s : BoardState) : BoardView :=
  match tasks s with
  | undefined => TypeError "Cannot read properties of undefined (reading 'filter')"
  | array l =>
      let lanes := tasksByStatus l in
      if loading s then LoadingView
      else match error s with
           | Some msg => ErrorView msg
           | None => Board lanes
           end
  end.

Definition no_tasks : Lanes := mkLanes [] [] [] [].

(** ** The page and its two fetches *)

(** Calls to the fetch collaborator are made in a small monad that
    records, in order, the identifier each call was given. *)
Definition Fetch (A : Type) : Type := list string → A * list string.

#[global] Instance fetch_ret : MRet Fetch := λ A a log, (a, log).

#[global] Instance fetch_bind : MBind Fetch :=
  λ A B k m log, let '(a, log') := m log in k a log'.

Definition run {A} (m : Fetch A) : A * list string := m [].

(** The two [useState] cells of [Page] (lines 242-243) and the state of
    the board mounted under it. *)
Record PageState : Type := mkPage {
  task : option TaskMain;
  page_error : option string;
  board : BoardState
}.

Section Fetching.

(** What the backend answers for each identifier. *)
Variable backend : string → FetchResult.

Definition getTaskById (id : string) : Fetch FetchResult :=
  λ log, (backend id, (log ++ [id])%list).

(** The mount effect of [DashboardContent] (lines 174-188): it takes no
    props, and the identifier on line 177 is a literal. *)
Definition DashboardContent_mount : Fetch BoardState :=
  r ← getTaskById "cm59m7yt30000iujtnlr77mne";
  mret (fetchTasks r initial_board).

(** [fetchTaskDetails] (lines 246-253), as the pair of cells it leaves. *)
Definition fetchTaskDetails (TaskId : string) : Fetch (option TaskMain * option string) :=
  r ← getTaskById TaskId;
  mret match r with
       | Resolved data => (data, None)
       | Rejected => (None, Some "Failed to fetch task details.")
       end.

(** Mounting [Page] with the resolved route parameter: the effect of the
    child runs before the effect of the parent. *)
Definition Page (TaskId : string) : Fetch PageState :=
  b ← DashboardContent_mount;
  d ← fetchTaskDetails TaskId;
  mret {| task := d.1; page_error := d.2; board := b |}.

End Fetching.

(** ** Cards and columns *)

(** What indexing one of the two style tables with a status string gives:
    the class string of an own key, or no class string at all (for any
    other key the lookup leaves the table). *)
Inductive StyleLookup : Type := Style (cls : string) | NoStyle.

(** [cardStyles[task.status as TaskStatus]] (lines 32-37, 49). *)
Definition cardStyles (key : string) : StyleLookup :=
  if decide (key = "TODO") then Style "bg-blue-200 dark:bg-blue-900"
  else if decide (key = "IN_PROGRESS") then Style "bg-yellow-200 dark:bg-yellow-800"
  else if decide (key = "COMPLETED") then Style "bg-green-200 dark:bg-green-800"
  else if decide (key = "BACKLOG") then Style "bg-red-200 dark:bg-red-800"
  else NoStyle.

(** [titleStyles[task.status as TaskStatus]] (lines 39-44, 56). *)
Definition titleStyles (key : string) : StyleLookup :=
  if decide (key = "TODO") then Style "text-blue-800 dark:text-blue-100"
  else if decide (key = "IN_PROGRESS") then Style "text-yellow-800 dark:text-yellow-100"
  else if decide (key = "COMPLETED") then Style "text-green-800 dark:text-green-100"
  else if decide (key = "BACKLOG") then Style "text-red-800 dark:text-red-100"
  else NoStyle.

(** The path handed to [router.push] when a card is clicked (line 50). *)
Definition task_href (task : Task) : string := "/dashboard/task/" ++ Task.id task.

(** What a [DraggableTask] puts on the screen.  The two optional sections
    are [None] when the guard in front of them fails.  The deadline is
    kept as the instant itself: its text depends on the locale data and
    the time zone of the browser. *)
Record CardView : Type := mkCardView {
  cardClass : StyleLookup;
  titleClass : StyleLookup;
  opacity : string;
  href : string;
  heading : string;
  shownDeadline : Z;
  body : string;
  assigneeBadges : option (list (string * string));
  subtaskItems : option (list (nat * string))
}.

(** [DraggableTask] (lines 22-115).  Badges are keyed by [assignee.id],
    sub-task items by their index. *)
Definition DraggableTask (task : Task) (isDragging : bool) : CardView :=
  {| cardClass := cardStyles (Task.status task);
     titleClass := titleStyles (Task.status task);
     opacity := if isDragging then "opacity-50" else "opacity-100";
     href := task_href task;
     heading := Task.title task;
     shownDeadline := Task.deadline task;
     body := Task.description task;
     assigneeBadges :=
       if decide (0 < length (Task.assignees task))
       then Some ((λ assignee, (Assignee.id assignee, Assignee.name assignee))
                    <$> Task.assignees task)
       else None;
     subtaskItems :=
       match Task.subTasks task with
       | Some subTasks =>
           if decide (0 < length subTasks)
           then Some (imap (λ index subTask, (index, SubTask.title subTask)) subTasks)
           else None
       | None => None
       end |}.

(** The props of a [TaskColumn] (lines 117-127), but for [onMoveTask],
    which the functions below take as an argument. *)
Module TaskColumn.
Record props : Type := mk {
  title : string;
  tasks : list Task;
  status : string
}.
End TaskColumn.

(** [drop: (item: Task) => onMoveTask(item, status)] (line 130). *)
Definition TaskColumn_drop {A} (p : TaskColumn.props) (onMoveTask : Task → string → A)
    (item : Task) : A :=
  onMoveTask item (TaskColumn.status p).

(** [tasks.map((task) => <DraggableTask key={task.id} task={task} />)]
    (lines 143-145): each card with its key. *)
Definition TaskColumn_cards (isDragging : Task → bool) (p : TaskColumn.props)
    : list (string * CardView) :=
  (λ task, (Task.id task, DraggableTask task (isDragging task))) <$> TaskColumn.tasks p.

(** The four columns [DashboardContent] renders (lines 204-229). *)
Definition DashboardContent_columns (lanes : Lanes) : list TaskColumn.props :=
  [ TaskColumn.mk "TODO" (todo lanes) "TODO";
    TaskColumn.mk "IN PROGRESS" (inProgress lanes) "IN_PROGRESS";
    TaskColumn.mk "COMPLETED" (completed lanes) "COMPLETED";
    TaskColumn.mk "BACKLOG" (backlog lanes) "BACKLOG" ].

(** A drop of [item] on the [k]-th column of the board, as the store it
    leaves; there is no column to drop on past the fourth. *)
Definition drop_on (tasks : list Task) (k : nat) (item : Task) : list Task :=
  match DashboardContent_columns (tasksByStatus tasks) !! k with
  | Some p => TaskColumn_drop p moveTask item tasks
  | None => tasks
  end.

(** A series of drops, each given by its column and the card dragged. *)
Definition drops (tasks : list Task) (gestures : list (nat * Task)) : list Task :=
  foldl (λ st g, drop_on st g.1 g.2) tasks gestures.

(** The number of cards on the board. *)
Definition cards_on_board (lanes : Lanes) : nat :=
  length (todo lanes) + length (inProgress lanes)
  + length (completed lanes) + length (backlog lanes).

#[global] Instance in_taxonomy_dec (s : string) : Decision (in_taxonomy s).
Proof.
  refine (cast_if (decide (s = "TODO" ∨ s = "IN_PROGRESS" ∨ s = "COMPLETED" ∨ s = "BACKLOG"))).
  - abstract (destruct o as [ -> | [ -> | [ -> | -> ] ] ];
      [exists TODO|exists IN_PROGRESS|exists COMPLETED|exists BACKLOG]; reflexivity).
  - abstract (intros [S ->]; apply n; destruct S; simpl; auto).
Defined.

(** Everything a card shows but its two colour classes and its opacity. *)
Definition card_content (v : CardView)
    : string * string * Z * string * option (list (string * string))
      * option (list (nat * string)) :=
  (href v, heading v, shownDeadline v, body v, assigneeBadges v, subtaskItems v).

(** ** What the page shows *)

Inductive PageView : Type :=
  | PageErrorView (msg : string)
  | PageContent (title description status : option string) (board : BoardView).

(** The render of [Page] (lines 258-274): the error replaces everything;
    otherwise the header reads the parent through [task?.] and the board
    is rendered below it.  A [TypeError] in the place of the board means
    that the render of the board threw. *)
Definition Page_render (s : PageState) : PageView :=
  match page_error s with
  | Some msg => PageErrorView msg
  | None =>
      PageContent (TaskMain.title <$> task s) (TaskMain.description <$> task s)
        (TaskMain.status <$> task s) (DashboardContent_render (board s))
  end.

(** * Properties *)

(** ** Scenarios of the spec *)

Example scenario_partition :
  tasksByStatus [card "a" "TODO"; card "b" "BACKLOG"; card "c" "TODO"]
  = mkLanes [card "a" "TODO"; card "c" "TODO"] [] [] [card "b" "BACKLOG"].
Proof. reflexivity. Qed.

Example scenario_reassign :
  moveTask (card "b" "BACKLOG") "COMPLETED"
    [card "a" "TODO"; card "b" "BACKLOG"; card "c" "TODO"]
  = [card "a" "TODO"; card "b" "COMPLETED"; card "c" "TODO"].
Proof. reflexivity. Qed.

Example scenario_repartition :
  let store := moveTask (card "b" "BACKLOG") "COMPLETED"
                 [card "a" "TODO"; card "b" "BACKLOG"; card "c" "TODO"] in
  completed (tasksByStatus store) = [card "b" "COMPLETED"]
  ∧ backlog (tasksByStatus store) = [].
Proof. split; reflexivity. Qed.

(** ** Shared facts *)

Lemma status_literal_inj S1 S2 : status_literal S1 = status_literal S2 → S1 = S2.
Proof. destruct S1, S2; simpl; intros H; try reflexivity; discriminate H. Qed.

Lemma archived_not_in_taxonomy : ¬ in_taxonomy "ARCHIVED".
Proof. intros [S H]. destruct S; discriminate H. Qed.

(** Each lane is the filter on its own literal. *)
Lemma lane_filter S (T : list Task) :
  lane S (tasksByStatus T) = filter (λ t, Task.status t = status_literal S) T.
Proof. destruct S; reflexivity. Qed.

Lemma elem_of_lane S (T : list Task) t :
  t ∈ lane S (tasksByStatus T) ↔ t ∈ T ∧ Task.status t = status_literal S.
Proof. rewrite lane_filter, list_elem_of_filter. tauto. Qed.

Lemma moveTask_lookup task newStatus (store : list Task) i :
  moveTask task newStatus store !! i
  = (λ t, if decide (Task.id t = Task.id task) then with_status t newStatus else t)
      <$> store !! i.
Proof. unfold moveTask. apply list_lookup_fmap. Qed.

Lemma moveTask_ids task newStatus (store : list Task) :
  Task.id <$> moveTask task newStatus store = Task.id <$> store.
Proof.
  unfold moveTask. rewrite <- list_fmap_compose.
  apply list_fmap_ext. intros i t _. simpl. case_decide; reflexivity.
Qed.

(** ** Partition *)

(** C1, as written, at a store holding one task whose status is outside
    the taxonomy: the task is in the store and in no lane, so the union
    of the lanes is not the store. *)
Lemma partition_union_counterexample :
  let T := [card "x" "ARCHIVED"] in
  ¬ (∀ t, t ∈ T ↔ ∃ S, t ∈ lane S (tasksByStatus T)).
Proof.
  intros T H.
  destruct (proj1 (H (card "x" "ARCHIVED"))) as [S HS].
  - apply list_elem_of_here.
  - apply elem_of_lane in HS as [_ HS]. destruct S; discriminate HS.
Qed.

(** C1 (amended): for every task list [T] and every status [S] of the
    taxonomy, lane [S] of the partition keeps the relative order of [T],
    holds only tasks whose status is [S], and leaves out only tasks whose
    status is not [S] (so it is exactly the tasks of [T] with status [S],
    each as often as in [T]); two different lanes share no task; and a
    task is in some lane exactly when it is in [T] and its status is one
    of the four values. *)
Theorem tasksByStatus_partition (T : list Task) :
  (∀ S, lane S (tasksByStatus T) `sublist_of` T)
  ∧ (∀ S, Forall (λ t, Task.status t = status_literal S) (lane S (tasksByStatus T)))
  ∧ (∀ S, ∃ rest, T ≡ₚ lane S (tasksByStatus T) ++ rest
                  ∧ Forall (λ t, Task.status t ≠ status_literal S) rest)
  ∧ (∀ S1 S2 t, S1 ≠ S2 → t ∈ lane S1 (tasksByStatus T) → t ∉ lane S2 (tasksByStatus T))
  ∧ (∀ t, (∃ S, t ∈ lane S (tasksByStatus T)) ↔ t ∈ T ∧ in_taxonomy (Task.status t)).
Proof.
  split; [|split; [|split; [|split]]].
  - intros S. rewrite lane_filter. apply sublist_filter.
  - intros S. rewrite lane_filter. apply Forall_forall.
    intros t Ht. apply list_elem_of_filter in Ht. tauto.
  - intros S. exists (filter (λ t, ¬ Task.status t = status_literal S) T). split.
    + rewrite lane_filter. symmetry. apply filter_app_complement.
    + apply Forall_forall. intros t Ht. apply list_elem_of_filter in Ht. tauto.
  - intros S1 S2 t Hne H1 H2.
    apply elem_of_lane in H1 as [_ H1]. apply elem_of_lane in H2 as [_ H2].
    apply Hne, status_literal_inj. congruence.
  - intros t. split.
    + intros [S HS]. apply elem_of_lane in HS as [Ht HS].
      split; [exact Ht|]. exists S. exact HS.
    + intros [Ht [S HS]]. exists S. apply elem_of_lane. tauto.
Qed.

(** C10: a task of [T] whose status string is none of the four literals
    is in none of the four lanes; the partition is still computed. *)
Theorem unrecognized_status_dropped (T : list Task) (t : Task) :
  t ∈ T → ¬ in_taxonomy (Task.status t) →
  ∀ S, t ∉ lane S (tasksByStatus T).
Proof.
  intros _ Hout S HS. apply elem_of_lane in HS as [_ HS].
  apply Hout. exists S. exact HS.
Qed.

Lemma unrecognized_status_dropped_witness :
  let T := [card "a" "TODO"; card "x" "ARCHIVED"] in
  card "x" "ARCHIVED" ∈ T
  ∧ ¬ in_taxonomy (Task.status (card "x" "ARCHIVED"))
  ∧ ∀ S, card "x" "ARCHIVED" ∉ lane S (tasksByStatus T).
Proof.
  intros T.
  assert (Hin : card "x" "ARCHIVED" ∈ T) by (apply list_elem_of_further, list_elem_of_here).
  split; [exact Hin|]. split; [exact archived_not_in_taxonomy|].
  exact (unrecognized_status_dropped T (card "x" "ARCHIVED") Hin archived_not_in_taxonomy).
Defined.

(** ** Reassignment *)

(** C2: in a store with unique identifiers that holds a task with the
    identifier of the dropped card, the drop leaves that task at its
    position with status [newStatus] and every other field as before, it
    is the only task of the new store with that identifier, and every
    other position holds the task it held before. *)
Theorem moveTask_sets_status (store : list Task) (task : Task) (newStatus : string) :
  NoDup (Task.id <$> store) →
  (∃ t, t ∈ store ∧ Task.id t = Task.id task) →
  ∃ i t t',
    store !! i = Some t ∧ Task.id t = Task.id task
    ∧ moveTask task newStatus store !! i = Some t'
    ∧ Task.status t' = newStatus
    ∧ same_but_status t t'
    ∧ (∀ j u, moveTask task newStatus store !! j = Some u →
              Task.id u = Task.id task → j = i)
    ∧ (∀ j, j ≠ i → moveTask task newStatus store !! j = store !! j).
Proof.
  intros Hnodup (t & Hin & Hid).
  apply list_elem_of_lookup in Hin as [i Hi].
  assert (Hother : ∀ j u, store !! j = Some u → Task.id u = Task.id task → j = i).
  { intros j u Hj Hu.
    apply (NoDup_lookup (Task.id <$> store) j i (Task.id task) Hnodup).
    - rewrite list_lookup_fmap, Hj. simpl. congruence.
    - rewrite list_lookup_fmap, Hi. simpl. congruence. }
  exists i, t, (with_status t newStatus).
  split; [exact Hi|]. split; [exact Hid|]. split.
  { rewrite moveTask_lookup, Hi. simpl. rewrite decide_True by exact Hid. reflexivity. }
  split; [reflexivity|]. split; [repeat split|]. split.
  - intros j u Hj Hu. rewrite moveTask_lookup in Hj.
    destruct (store !! j) as [v|] eqn:Hv; [|discriminate Hj].
    apply (Hother j v Hv). simpl in Hj. injection Hj as <-.
    destruct (decide (Task.id v = Task.id task)) as [Heq|Hne]; [exact Heq|exact Hu].
  - intros j Hne. rewrite moveTask_lookup.
    destruct (store !! j) as [v|] eqn:Hv; [|reflexivity]. simpl.
    destruct (decide (Task.id v = Task.id task)) as [Heq|_]; [|reflexivity].
    exfalso. apply Hne. exact (Hother j v Hv Heq).
Qed.

Lemma moveTask_sets_status_witness :
  let store := [card "a" "TODO"; card "b" "BACKLOG"; card "c" "TODO"] in
  let task := card "b" "BACKLOG" in
  ∃ i t t',
    store !! i = Some t ∧ Task.id t = Task.id task
    ∧ moveTask task "COMPLETED" store !! i = Some t'
    ∧ Task.status t' = "COMPLETED"
    ∧ same_but_status t t'
    ∧ (∀ j u, moveTask task "COMPLETED" store !! j = Some u →
              Task.id u = Task.id task → j = i)
    ∧ (∀ j, j ≠ i → moveTask task "COMPLETED" store !! j = store !! j).
Proof.
  intros store task.
  apply (moveTask_sets_status store task "COMPLETED").
  - apply (bool_decide_unpack _). vm_compute. exact I.
  - exists (card "b" "BACKLOG"). split; [|reflexivity].
    apply list_elem_of_further, list_elem_of_here.
Defined.

(** C3: when no task of the store has the identifier of the dropped card,
    the drop returns the store as it was. *)
Theorem moveTask_absent (store : list Task) (task : Task) (newStatus : string) :
  (∀ t, t ∈ store → Task.id t ≠ Task.id task) →
  moveTask task newStatus store = store.
Proof.
  intros Habs. unfold moveTask.
  induction store as [|t store IH]; [reflexivity|].
  rewrite fmap_cons. f_equal.
  - rewrite decide_False; [reflexivity|]. apply Habs, list_elem_of_here.
  - apply IH. intros u Hu. apply Habs, list_elem_of_further, Hu.
Qed.

Lemma moveTask_absent_witness :
  moveTask (card "z" "TODO") "COMPLETED" [card "a" "TODO"; card "b" "BACKLOG"]
  = [card "a" "TODO"; card "b" "BACKLOG"].
Proof.
  apply (moveTask_absent [card "a" "TODO"; card "b" "BACKLOG"] (card "z" "TODO") "COMPLETED").
  intros t Ht.
  apply elem_of_cons in Ht as [->|Ht]; [discriminate|].
  apply elem_of_cons in Ht as [->|Ht]; [discriminate|].
  inversion Ht.
Defined.

(** C4: dropping the same card on the same lane a second time changes
    nothing: for every store, card and target status, the second drop
    returns the store the first one returned. *)
Theorem moveTask_idempotent (store : list Task) (task : Task) (newStatus : string) :
  moveTask task newStatus (moveTask task newStatus store)
  = moveTask task newStatus store.
Proof.
  unfold moveTask. rewrite <- list_fmap_compose.
  apply list_fmap_ext. intros i t _. simpl.
  destruct (decide (Task.id t = Task.id task)) as [Heq|Hne].
  - simpl. rewrite decide_True by exact Heq. reflexivity.
  - rewrite decide_False by exact Hne. reflexivity.
Qed.

(** C6: a drop neither inserts nor deletes: the new store has the length
    of the old one and the same identifiers at the same positions. *)
Theorem moveTask_preserves_shape (store : list Task) (task : Task) (newStatus : string) :
  length (moveTask task newStatus store) = length store
  ∧ Task.id <$> moveTask task newStatus store = Task.id <$> store
  ∧ ∀ i, Task.id <$> (moveTask task newStatus store !! i) = Task.id <$> (store !! i).
Proof.
  split; [|split].
  - unfold moveTask. apply length_fmap.
  - apply moveTask_ids.
  - intros i. rewrite <- !list_lookup_fmap, moveTask_ids. reflexivity.
Qed.

(** C8: the drop does not look at [newStatus], which ranges over all
    strings and not only the four literals: whenever the store holds a
    task with the identifier of the dropped card, the new store holds one
    too, and every task of the new store with that identifier has status
    [newStatus], the very string that was passed. *)
Theorem moveTask_blind_assignment (store : list Task) (task : Task) (newStatus : string) :
  (∃ t, t ∈ store ∧ Task.id t = Task.id task) →
  (∃ t', t' ∈ moveTask task newStatus store ∧ Task.id t' = Task.id task)
  ∧ (∀ t', t' ∈ moveTask task newStatus store →
           Task.id t' = Task.id task → Task.status t' = newStatus).
Proof.
  intros (t & Hin & Hid). split.
  - exists (with_status t newStatus). split; [|exact Hid].
    unfold moveTask. apply list_elem_of_fmap. exists t. split; [|exact Hin].
    rewrite decide_True by exact Hid. reflexivity.
  - intros t' Hin' Hid'. unfold moveTask in Hin'.
    apply list_elem_of_fmap in Hin' as (u & -> & _).
    destruct (decide (Task.id u = Task.id task)) as [_|Hne]; [reflexivity|].
    exfalso. apply Hne, Hid'.
Qed.

Lemma moveTask_blind_assignment_witness :
  let store := [card "a" "TODO"; card "b" "BACKLOG"] in
  ¬ in_taxonomy "ARCHIVED"
  ∧ (∃ t', t' ∈ moveTask (card "b" "BACKLOG") "ARCHIVED" store ∧ Task.id t' = "b")
  ∧ (∀ t', t' ∈ moveTask (card "b" "BACKLOG") "ARCHIVED" store →
           Task.id t' = "b" → Task.status t' = "ARCHIVED").
Proof.
  intros store. split; [exact archived_not_in_taxonomy|].
  apply (moveTask_blind_assignment store (card "b" "BACKLOG") "ARCHIVED").
  exists (card "b" "BACKLOG"). split; [|reflexivity].
  apply list_elem_of_further, list_elem_of_here.
Defined.

(** ** Store initialisation *)

Lemma tasksByStatus_nil : tasksByStatus [] = no_tasks.
Proof. reflexivity. Qed.

(** C5, as written, at a fetched record without a [subTasks] field: the
    store is not the empty store, and the render that partitions it
    throws instead of giving four empty lanes. *)
Lemma missing_subTasks_counterexample :
  let s := fetchTasks (Resolved (Some (TaskMain.mk "Parent" "" "TODO" undefined)))
             initial_board in
  tasks s ≠ array []
  ∧ DashboardContent_render s ≠ Board no_tasks
  ∧ DashboardContent_render s
    = TypeError "Cannot read properties of undefined (reading 'filter')".
Proof. repeat split; discriminate. Qed.

(** C5 (amended): when the source supplies no record at all (the promise
    rejects, or resolves to [null]), the store stays the empty initial
    store, its partition is four empty lanes, and the board shows its
    error message and no task; when the record holds an empty [subTasks]
    sequence the board renders four empty lanes.  When the record has no
    [subTasks] field, the absent value is stored as it is, no error is
    recorded, and the next render throws while partitioning. *)
Theorem fetchTasks_without_tasks :
  (tasks (fetchTasks Rejected initial_board) = array []
   ∧ DashboardContent_render (fetchTasks Rejected initial_board)
     = ErrorView "An error occurred while fetching tasks.")
  ∧ (tasks (fetchTasks (Resolved None) initial_board) = array []
     ∧ DashboardContent_render (fetchTasks (Resolved None) initial_board)
       = ErrorView "An error occurred while fetching tasks.")
  ∧ tasksByStatus [] = no_tasks
  ∧ (∀ ti de st,
        DashboardContent_render
          (fetchTasks (Resolved (Some (TaskMain.mk ti de st (array [])))) initial_board)
        = Board no_tasks)
  ∧ (∀ ti de st,
        let s := fetchTasks (Resolved (Some (TaskMain.mk ti de st undefined)))
                   initial_board in
        tasks s = undefined ∧ error s = None ∧ loading s = false
        ∧ ∃ msg, DashboardContent_render s = TypeError msg).
Proof.
  split; [split; reflexivity|].
  split; [split; reflexivity|].
  split; [reflexivity|].
  split; [reflexivity|].
  intros ti de st. simpl. repeat split. eexists. reflexivity.
Qed.

(** ** Memoised partition *)

Lemma render_ok c : component_ok c → component_ok (render c).2.
Proof.
  intros [Hlt Hmemo]. unfold render, useMemo.
  destruct (memo c) as [[dep value]|] eqn:Hm.
  - destruct Hmemo as (Hv & Hd & Hsame). unfold Object_is.
    destruct (bool_decide (ref dep = ref (store c))) eqn:Href;
      unfold component_ok; simpl; auto.
  - unfold component_ok; simpl; auto.
Qed.

Lemma render_lanes c :
  component_ok c → (render c).1 = tasksByStatus (elems (store c)).
Proof.
  intros [Hlt Hmemo]. unfold render, useMemo.
  destruct (memo c) as [[dep value]|] eqn:Hm; [|reflexivity].
  destruct Hmemo as (Hv & Hd & Hsame). unfold Object_is.
  destruct (bool_decide (ref dep = ref (store c))) eqn:Href; simpl; [|reflexivity].
  apply bool_decide_eq_true in Href. rewrite <- (Hsame Href). exact Hv.
Qed.

Lemma setTasks_fresh_ok l c : component_ok c → component_ok (setTasks_fresh l c).
Proof.
  intros [Hlt Hmemo]. split; simpl; [lia|].
  destruct (memo c) as [[dep value]|]; [|exact I].
  destruct Hmemo as (Hv & Hd & Hsame).
  split; [exact Hv|]. split; [lia|]. intros Heq. lia.
Qed.

Lemma step_ok c e : component_ok c → component_ok (step c e).
Proof.
  intros Hc. unfold step. apply render_ok.
  destruct e; [exact Hc|apply setTasks_fresh_ok, Hc|apply setTasks_fresh_ok, Hc|].
  destruct Hc as [Hlt _]. split; [exact Hlt|exact I].
Qed.

Lemma mounted_ok : component_ok mounted.
Proof. apply render_ok. split; simpl; [lia|exact I]. Qed.

Lemma after_ok events : component_ok (after events).
Proof.
  unfold after. generalize mounted mounted_ok.
  induction events as [|e events IH]; intros c Hc; [exact Hc|].
  simpl. apply IH, step_ok, Hc.
Qed.

(** C7: the lanes a render shows depend on the elements of the task
    array alone.  Take two runs of the component, each with its own
    history of loads, drops and renders and so its own remembered value;
    if the stores they end with hold the same elements, the next render
    yields the same lanes in both, namely [tasksByStatus] of those
    elements. *)
Theorem tasksByStatus_deterministic (run1 run2 : list Event) :
  elems (store (after run1)) = elems (store (after run2)) →
  shown (after run1) = shown (after run2)
  ∧ shown (after run1) = tasksByStatus (elems (store (after run1))).
Proof.
  intros Heq. unfold shown.
  rewrite !render_lanes by apply after_ok. rewrite Heq. split; reflexivity.
Qed.

Lemma tasksByStatus_deterministic_witness :
  let run1 := [Loaded [card "a" "TODO"; card "b" "BACKLOG"];
               Dropped (card "b" "BACKLOG") "COMPLETED"; Rerender] in
  let run2 := [Discarded; Loaded [card "a" "TODO"; card "b" "COMPLETED"]] in
  shown (after run1) = shown (after run2)
  ∧ shown (after run1) = tasksByStatus (elems (store (after run1))).
Proof.
  intros run1 run2.
  apply (tasksByStatus_deterministic run1 run2). reflexivity.
Defined.

(** On a render that changes nothing in the store the factory is not
    rerun: the cell keeps the array and the value it had. *)
Example rerender_reuses_cell :
  memo (after [Loaded [card "a" "TODO"]; Rerender]) = memo (after [Loaded [card "a" "TODO"]]).
Proof. reflexivity. Qed.

(** ** The two fetches of the page *)

(** C9: the effect that fills the store calls the collaborator once, with
    the literal of line 177; whatever [TaskId] the route supplies, the
    page passes that literal for the store and [TaskId] only for the
    details of the parent task, and the state of the board is the one
    obtained from the backend's answer for the literal.  Hence two route
    values give the same store request and the same board. *)
Theorem store_fetch_ignores_route (backend : string → FetchResult) :
  (run (DashboardContent_mount backend)).2 = ["cm59m7yt30000iujtnlr77mne"]
  ∧ (∀ TaskId,
       (run (Page backend TaskId)).2 = ["cm59m7yt30000iujtnlr77mne"; TaskId]
       ∧ board (run (Page backend TaskId)).1
         = fetchTasks (backend "cm59m7yt30000iujtnlr77mne") initial_board)
  ∧ (∀ id1 id2,
       board (run (Page backend id1)).1 = board (run (Page backend id2)).1
       ∧ tasks (board (run (Page backend id1)).1)
         = tasks (board (run (Page backend id2)).1)).
Proof.
  split; [reflexivity|]. split.
  - intros TaskId. split; reflexivity.
  - intros id1 id2. split; reflexivity.
Qed.

(** The parent's details, by contrast, follow the route. *)
Example parent_fetch_follows_route :
  let backend := λ i, if decide (i = "p1")
                      then Resolved (Some (TaskMain.mk "One" "" "TODO" (array [])))
                      else Rejected in
  task (run (Page backend "p1")).1 ≠ task (run (Page backend "p2")).1.
Proof. discriminate. Qed.

(** ** How drops compose *)

Lemma with_status_same t : with_status t (Task.status t) = t.
Proof. destruct t; reflexivity. Qed.

Lemma moveTask_keeps (store : list Task) (task : Task) (newStatus : string) :
  (∀ t, t ∈ store → Task.id t = Task.id task → Task.status t = newStatus) →
  moveTask task newStatus store = store.
Proof.
  intros Hst. unfold moveTask.
  induction store as [|t store IH]; [reflexivity|].
  rewrite fmap_cons. f_equal.
  - destruct (decide (Task.id t = Task.id task)) as [Heq|_]; [|reflexivity].
    rewrite <- (Hst t (list_elem_of_here _ _) Heq). apply with_status_same.
  - apply IH. intros u Hu. apply Hst, list_elem_of_further, Hu.
Qed.

Lemma moveTask_twice (store : list Task) (a b : Task) (s1 s2 : string) :
  Task.id a = Task.id b →
  moveTask b s2 (moveTask a s1 store) = moveTask b s2 store.
Proof.
  intros Hab. unfold moveTask. rewrite <- list_fmap_compose.
  apply list_fmap_ext. intros i t _. simpl. rewrite Hab.
  destruct (decide (Task.id t = Task.id b)) as [Heq|Hne]; simpl.
  - rewrite decide_True by exact Heq. reflexivity.
  - rewrite decide_False by exact Hne. reflexivity.
Qed.

(** A later drop of the same card overrides an earlier one, whatever
    payload each drag carried: only the lane of the last drop counts. *)
Theorem moveTask_last_drop_wins (store : list Task) (a b : Task) (s1 s2 : string) :
  Task.id a = Task.id b →
  moveTask b s2 (moveTask a s1 store) = moveTask b s2 store.
Proof. apply moveTask_twice. Qed.

Lemma moveTask_last_drop_wins_witness :
  let store := [card "a" "TODO"; card "b" "BACKLOG"] in
  moveTask (card "b" "COMPLETED") "TODO" (moveTask (card "b" "BACKLOG") "COMPLETED" store)
  = moveTask (card "b" "COMPLETED") "TODO" store.
Proof.
  intros store.
  apply (moveTask_last_drop_wins store (card "b" "BACKLOG") (card "b" "COMPLETED")).
  reflexivity.
Defined.

(** Drops of cards with different identifiers can be done in either
    order. *)
Theorem moveTask_commute (store : list Task) (a b : Task) (sa sb : string) :
  Task.id a ≠ Task.id b →
  moveTask a sa (moveTask b sb store) = moveTask b sb (moveTask a sa store).
Proof.
  intros Hne. unfold moveTask. rewrite <- !list_fmap_compose.
  apply list_fmap_ext. intros i t _. unfold compose.
  destruct (decide (Task.id t = Task.id a)) as [Ha|Ha];
    destruct (decide (Task.id t = Task.id b)) as [Hb|Hb]; simpl;
    repeat case_decide; try reflexivity; try contradiction.
  exfalso. apply Hne. congruence.
Qed.

Lemma moveTask_commute_witness :
  let store := [card "a" "TODO"; card "b" "BACKLOG"; card "c" "TODO"] in
  moveTask (card "a" "TODO") "COMPLETED" (moveTask (card "b" "BACKLOG") "TODO" store)
  = moveTask (card "b" "BACKLOG") "TODO" (moveTask (card "a" "TODO") "COMPLETED" store).
Proof.
  intros store.
  apply (moveTask_commute store (card "a" "TODO") (card "b" "BACKLOG")).
  discriminate.
Defined.

(** Dragging a card away and back restores the store: if every task
    with the card's identifier had status [s0], a drop on any lane
    followed by a drop on the lane of [s0] gives back the store, field
    for field. *)
Theorem moveTask_undo (store : list Task) (task : Task) (s0 s1 : string) :
  (∀ t, t ∈ store → Task.id t = Task.id task → Task.status t = s0) →
  moveTask task s0 (moveTask task s1 store) = store.
Proof.
  intros Hst. rewrite moveTask_twice by reflexivity. apply moveTask_keeps, Hst.
Qed.

Lemma moveTask_undo_witness :
  let store := [card "a" "TODO"; card "b" "BACKLOG"; card "c" "TODO"] in
  moveTask (card "b" "BACKLOG") "BACKLOG" (moveTask (card "b" "BACKLOG") "COMPLETED" store)
  = store.
Proof.
  intros store.
  apply (moveTask_undo store (card "b" "BACKLOG") "BACKLOG" "COMPLETED").
  intros t Ht Hid.
  apply elem_of_cons in Ht as [->|Ht]; [discriminate Hid|].
  apply elem_of_cons in Ht as [->|Ht]; [reflexivity|].
  apply elem_of_cons in Ht as [->|Ht]; [discriminate Hid|].
  inversion Ht.
Defined.

(** ** A drop seen through the lanes *)

Lemma filter_fmap {A B} (f : A → B) (P : B → Prop) `{!∀ y, Decision (P y)} (l : list A) :
  filter P (f <$> l) = f <$> filter (P ∘ f) l.
Proof.
  induction l as [|x l IH]; [reflexivity|].
  rewrite fmap_cons, !filter_cons, IH. unfold compose.
  destruct (decide (P (f x))); reflexivity.
Qed.

Lemma moveTask_skips (store : list Task) (task : Task) (newStatus : string) :
  (∀ t, t ∈ store → Task.id t ≠ Task.id task) →
  moveTask task newStatus store = store.
Proof.
  intros Habs. apply moveTask_keeps. intros t Ht Hid. destruct (Habs t Ht Hid).
Qed.

(** After a drop on the lane of a taxonomy status [S], that lane holds the
    cards it held and the dropped one, in store order, and every other
    lane has lost the dropped card and nothing else, its order kept. *)
Theorem drop_moves_card (store : list Task) (task : Task) (S : TaskStatus) :
  lane S (tasksByStatus (moveTask task (status_literal S) store))
  = moveTask task (status_literal S)
      (filter (λ t, Task.id t = Task.id task ∨ Task.status t = status_literal S) store)
  ∧ ∀ S', S' ≠ S →
      lane S' (tasksByStatus (moveTask task (status_literal S) store))
      = filter (λ t, Task.id t ≠ Task.id task) (lane S' (tasksByStatus store)).
Proof.
  split.
  - rewrite lane_filter. unfold moveTask at 1. rewrite filter_fmap.
    unfold moveTask. f_equal. apply list_filter_iff. intros t. unfold compose.
    destruct (decide (Task.id t = Task.id task)) as [Heq|Hne]; simpl; tauto.
  - intros S' HS'. rewrite !lane_filter, list_filter_filter.
    unfold moveTask. rewrite filter_fmap.
    rewrite (list_filter_iff _
               (λ t, Task.id t ≠ Task.id task ∧ Task.status t = status_literal S')).
    + apply moveTask_skips. intros t Ht. apply list_elem_of_filter in Ht. tauto.
    + intros t. unfold compose.
      destruct (decide (Task.id t = Task.id task)) as [Heq|Hne]; simpl; [|tauto].
      split; [|tauto]. intros Hlit. apply status_literal_inj in Hlit. congruence.
Qed.

Example drop_moves_card_example :
  let store := [card "a" "TODO"; card "b" "BACKLOG"; card "c" "TODO"; card "d" "COMPLETED"] in
  tasksByStatus (moveTask (card "b" "BACKLOG") "TODO" store)
  = mkLanes [card "a" "TODO"; card "b" "TODO"; card "c" "TODO"] [] [card "d" "COMPLETED"] [].
Proof. reflexivity. Qed.

(** ** Cards on the board *)

Lemma cards_on_board_filter (T : list Task) :
  cards_on_board (tasksByStatus T)
  = length (filter (λ t, in_taxonomy (Task.status t)) T).
Proof.
  unfold cards_on_board, tasksByStatus. simpl.
  induction T as [|t T IH]; [reflexivity|].
  rewrite !filter_cons.
  destruct (decide (in_taxonomy (Task.status t))) as [[S HS]|Hout].
  - rewrite HS. destruct S; simpl; rewrite <- IH; lia.
  - assert (Task.status t ≠ "TODO") by (intros E; apply Hout; exists TODO; exact E).
    assert (Task.status t ≠ "IN_PROGRESS") by (intros E; apply Hout; exists IN_PROGRESS; exact E).
    assert (Task.status t ≠ "COMPLETED") by (intros E; apply Hout; exists COMPLETED; exact E).
    assert (Task.status t ≠ "BACKLOG") by (intros E; apply Hout; exists BACKLOG; exact E).
    rewrite !decide_False by assumption. exact IH.
Qed.

Lemma length_filter_all {A} (P : A → Prop) `{!∀ x, Decision (P x)} (l : list A) :
  length (filter P l) = length l ↔ Forall P l.
Proof.
  induction l as [|x l IH]; [split; [constructor|reflexivity]|].
  rewrite filter_cons. destruct (decide (P x)) as [HP|HP]; simpl.
  - rewrite Forall_cons. split.
    + intros Hlen. split; [exact HP|]. apply IH. lia.
    + intros [_ Hall]. f_equal. apply IH, Hall.
  - split.
    + intros Hlen. pose proof (length_filter P l). lia.
    + intros Hall. apply Forall_cons in Hall as [Hx _]. contradiction.
Qed.

(** The board never shows more cards than the store holds, no card
    twice, and it shows all of them exactly when every status in the
    store is one of the four literals. *)
Theorem cards_on_board_bound (T : list Task) :
  (cards_on_board (tasksByStatus T) ≤ length T)%nat
  ∧ (cards_on_board (tasksByStatus T) = length T
     ↔ Forall (λ t, in_taxonomy (Task.status t)) T).
Proof.
  rewrite cards_on_board_filter. split.
  - apply length_filter.
  - apply length_filter_all.
Qed.

(** ** Drops made on the columns of the board *)

Lemma columns_lookup (lanes : Lanes) k p :
  DashboardContent_columns lanes !! k = Some p →
  ∃ S, TaskColumn.status p = status_literal S ∧ TaskColumn.tasks p = lane S lanes.
Proof.
  intros Hk. unfold DashboardContent_columns in Hk.
  destruct k as [|[|[|[|k]]]]; simpl in Hk; try discriminate Hk;
    injection Hk as <-;
    [exists TODO|exists IN_PROGRESS|exists COMPLETED|exists BACKLOG];
    split; reflexivity.
Qed.

Lemma drop_on_cases (tasks : list Task) k item :
  drop_on tasks k item = tasks
  ∨ ∃ S, drop_on tasks k item = moveTask item (status_literal S) tasks.
Proof.
  unfold drop_on.
  destruct (DashboardContent_columns (tasksByStatus tasks) !! k) as [p|] eqn:Hk; [|left; reflexivity].
  apply columns_lookup in Hk as (S & HS & _).
  right. exists S. unfold TaskColumn_drop. rewrite HS. reflexivity.
Qed.

Lemma moveTask_taxonomy (tasks : list Task) item S :
  Forall (λ t, in_taxonomy (Task.status t)) tasks →
  Forall (λ t, in_taxonomy (Task.status t)) (moveTask item (status_literal S) tasks).
Proof.
  intros H. unfold moveTask. apply Forall_fmap.
  eapply Forall_impl; [exact H|]. intros t Ht. simpl.
  destruct (decide (Task.id t = Task.id item)); [exists S; reflexivity|exact Ht].
Qed.

Lemma drops_taxonomy (tasks : list Task) gestures :
  Forall (λ t, in_taxonomy (Task.status t)) tasks →
  Forall (λ t, in_taxonomy (Task.status t)) (drops tasks gestures).
Proof.
  revert tasks. unfold drops.
  induction gestures as [|[k item] gestures IH]; intros tasks H; [exact H|].
  simpl. apply IH.
  destruct (drop_on_cases tasks k item) as [->|[S ->]]; [exact H|].
  apply moveTask_taxonomy, H.
Qed.

Lemma drops_ids (tasks : list Task) gestures :
  Task.id <$> drops tasks gestures = Task.id <$> tasks.
Proof.
  revert tasks. unfold drops.
  induction gestures as [|[k item] gestures IH]; intros tasks; [reflexivity|].
  simpl. rewrite IH.
  destruct (drop_on_cases tasks k item) as [->|[S ->]]; [reflexivity|].
  apply moveTask_ids.
Qed.

(** Dragging and dropping on the board never loses a card: from a store
    whose statuses are all among the four literals, any series of drops
    on the columns leaves a store with statuses among the four literals,
    the same identifiers at the same positions, and a board that shows
    as many cards as the store holds. *)
Theorem drops_keep_every_card (tasks : list Task) (gestures : list (nat * Task)) :
  Forall (λ t, in_taxonomy (Task.status t)) tasks →
  Forall (λ t, in_taxonomy (Task.status t)) (drops tasks gestures)
  ∧ Task.id <$> drops tasks gestures = Task.id <$> tasks
  ∧ cards_on_board (tasksByStatus (drops tasks gestures)) = length tasks.
Proof.
  intros H. pose proof (drops_taxonomy tasks gestures H) as Htax.
  split; [exact Htax|]. split; [apply drops_ids|].
  rewrite cards_on_board_filter.
  rewrite (proj2 (length_filter_all _ _) Htax).
  rewrite <- (length_fmap Task.id), drops_ids. apply length_fmap.
Qed.

Lemma drops_keep_every_card_witness :
  let tasks := [card "a" "TODO"; card "b" "BACKLOG"; card "c" "TODO"] in
  let gestures := [(2, card "b" "BACKLOG"); (0, card "zz" "TODO"); (7, card "a" "TODO");
                   (3, card "a" "TODO")] in
  Forall (λ t, in_taxonomy (Task.status t)) (drops tasks gestures)
  ∧ Task.id <$> drops tasks gestures = Task.id <$> tasks
  ∧ cards_on_board (tasksByStatus (drops tasks gestures)) = length tasks.
Proof.
  intros tasks gestures.
  apply (drops_keep_every_card tasks gestures).
  repeat constructor; [exists TODO|exists BACKLOG|exists TODO]; reflexivity.
Defined.

Lemma NoDup_fmap_eq {A B} (f : A → B) (l : list A) x y :
  NoDup (f <$> l) → x ∈ l → y ∈ l → f x = f y → x = y.
Proof.
  intros Hnd Hx Hy Hf.
  apply list_elem_of_lookup in Hx as [i Hi]. apply list_elem_of_lookup in Hy as [j Hj].
  assert (i = j) as ->.
  { apply (NoDup_lookup (f <$> l) i j (f x) Hnd).
    - rewrite list_lookup_fmap, Hi. reflexivity.
    - rewrite list_lookup_fmap, Hj. simpl. congruence. }
  congruence.
Qed.

(** With unique identifiers in the store, a card let go over the column
    it was taken from leaves the store as it was. *)
Theorem drop_on_own_column (tasks : list Task) (k : nat) (p : TaskColumn.props) (item : Task) :
  NoDup (Task.id <$> tasks) →
  DashboardContent_columns (tasksByStatus tasks) !! k = Some p →
  item ∈ TaskColumn.tasks p →
  drop_on tasks k item = tasks.
Proof.
  intros Hnd Hk Hitem. unfold drop_on. rewrite Hk. unfold TaskColumn_drop.
  apply columns_lookup in Hk as (S & HS & HT).
  rewrite HT in Hitem. apply elem_of_lane in Hitem as [Hin Hst].
  apply moveTask_keeps. intros t Ht Hid.
  rewrite (NoDup_fmap_eq Task.id tasks t item Hnd Ht Hin Hid). congruence.
Qed.

Lemma drop_on_own_column_witness :
  let tasks := [card "a" "TODO"; card "b" "BACKLOG"; card "c" "TODO"] in
  drop_on tasks 3 (card "b" "BACKLOG") = tasks.
Proof.
  intros tasks.
  apply (drop_on_own_column tasks 3 (TaskColumn.mk "BACKLOG" [card "b" "BACKLOG"] "BACKLOG")).
  - apply (bool_decide_unpack _). vm_compute. exact I.
  - reflexivity.
  - apply list_elem_of_here.
Defined.

(** With unique identifiers in the store, the keys of the cards of each
    column are pairwise different, before and after any series of drops. *)
Theorem column_keys_unique (tasks : list Task) (gestures : list (nat * Task))
    (isDragging : Task → bool) (k : nat) (p : TaskColumn.props) :
  NoDup (Task.id <$> tasks) →
  DashboardContent_columns (tasksByStatus (drops tasks gestures)) !! k = Some p →
  NoDup ((TaskColumn_cards isDragging p).*1).
Proof.
  intros Hnd Hk. apply columns_lookup in Hk as (S & _ & HT).
  assert (Hkeys : (TaskColumn_cards isDragging p).*1 = Task.id <$> TaskColumn.tasks p).
  { unfold TaskColumn_cards. rewrite <- list_fmap_compose. reflexivity. }
  rewrite Hkeys, HT.
  assert (Hsub : Task.id <$> lane S (tasksByStatus (drops tasks gestures))
                 `sublist_of` Task.id <$> drops tasks gestures).
  { apply (fmap_sublist Task.id). rewrite lane_filter. apply sublist_filter. }
  rewrite drops_ids in Hsub. exact (sublist_NoDup _ _ Hnd Hsub).
Qed.

Lemma column_keys_unique_witness :
  NoDup ((TaskColumn_cards (λ _, false)
            (TaskColumn.mk "TODO" [card "a" "TODO"; card "b" "TODO"; card "c" "TODO"] "TODO")).*1).
Proof.
  apply (column_keys_unique [card "a" "TODO"; card "b" "BACKLOG"; card "c" "TODO"]
           [(0, card "b" "BACKLOG")] (λ _, false) 0).
  - apply (bool_decide_unpack _). vm_compute. exact I.
  - reflexivity.
Defined.

(** ** What the cards show *)

(** Every card the board draws has the two colour classes of the column
    it is drawn in: the status of a task that reached a column is one of
    the four keys of the style tables, so neither lookup comes back
    without a class.  Its key is the task's identifier and its link is
    the task's page. *)
Theorem column_cards_styled (tasks : list Task) (isDragging : Task → bool)
    (k : nat) (p : TaskColumn.props) (key : string) (v : CardView) :
  DashboardContent_columns (tasksByStatus tasks) !! k = Some p →
  (key, v) ∈ TaskColumn_cards isDragging p →
  cardClass v = cardStyles (TaskColumn.status p)
  ∧ titleClass v = titleStyles (TaskColumn.status p)
  ∧ cardClass v ≠ NoStyle ∧ titleClass v ≠ NoStyle
  ∧ href v = "/dashboard/task/" ++ key
  ∧ ∃ t, t ∈ tasks ∧ Task.id t = key ∧ heading v = Task.title t.
Proof.
  intros Hk Hv. apply columns_lookup in Hk as (S & HS & HT).
  unfold TaskColumn_cards in Hv. apply list_elem_of_fmap in Hv as (t & Heq & Ht).
  injection Heq as -> ->. rewrite HT in Ht. apply elem_of_lane in Ht as [Hin Hst].
  rewrite HS. simpl. rewrite Hst.
  split; [reflexivity|]. split; [reflexivity|].
  split; [destruct S; discriminate|]. split; [destruct S; discriminate|].
  split; [reflexivity|]. exists t. auto.
Qed.

Lemma column_cards_styled_witness :
  let v := DraggableTask (card "b" "BACKLOG") false in
  cardClass v = cardStyles "BACKLOG"
  ∧ titleClass v = titleStyles "BACKLOG"
  ∧ cardClass v ≠ NoStyle ∧ titleClass v ≠ NoStyle
  ∧ href v = "/dashboard/task/" ++ "b"
  ∧ ∃ t, t ∈ [card "a" "TODO"; card "b" "BACKLOG"] ∧ Task.id t = "b" ∧ heading v = Task.title t.
Proof.
  intros v.
  apply (column_cards_styled [card "a" "TODO"; card "b" "BACKLOG"] (λ _, false) 3
           (TaskColumn.mk "BACKLOG" [card "b" "BACKLOG"] "BACKLOG") "b" v).
  - reflexivity.
  - apply list_elem_of_here.
Defined.

(** Drawn on its own, a card whose status is none of the four keys gets
    no colour class. *)
Example unstyled_card :
  cardClass (DraggableTask (card "x" "ARCHIVED") false) = NoStyle
  ∧ titleClass (DraggableTask (card "x" "ARCHIVED") false) = NoStyle.
Proof. split; reflexivity. Qed.



(** A drop changes nothing of what the cards show beyond colours: link,
    title, deadline, description, assignee badges and sub-task items of
    every card of the store are as before, position by position. *)
Theorem moveTask_keeps_card_content (store : list Task) (task : Task) (newStatus : string)
    (d d' : bool) :
  (λ t, card_content (DraggableTask t d)) <$> moveTask task newStatus store
  = (λ t, card_content (DraggableTask t d')) <$> store.
Proof.
  unfold moveTask. rewrite <- list_fmap_compose.
  apply list_fmap_ext. intros i t _. simpl.
  destruct (decide (Task.id t = Task.id task)); reflexivity.
Qed.

(** ** What the board and the page show once the fetches have settled *)

(** Once [fetchTasks] has run, from any state of the three cells,
    loading is over for good; a failed fetch leaves the store as it was
    and records the error, a delivered record replaces the store and
    leaves the error cell as it was. *)
Theorem fetchTasks_settles (r : FetchResult) (s : BoardState) :
  loading (fetchTasks r s) = false
  ∧ DashboardContent_render (fetchTasks r s) ≠ LoadingView
  ∧ match r with
    | Resolved (Some data) =>
        tasks (fetchTasks r s) = TaskMain.subTasks data ∧ error (fetchTasks r s) = error s
    | Resolved None | Rejected =>
        tasks (fetchTasks r s) = tasks s
        ∧ error (fetchTasks r s) = Some "An error occurred while fetching tasks."
    end.
Proof.
  split; [destruct r as [|[data|]]; reflexivity|]. split.
  - unfold DashboardContent_render.
    assert (Hl : loading (fetchTasks r s) = false) by (destruct r as [|[data|]]; reflexivity).
    rewrite Hl. destruct (tasks (fetchTasks r s)); [discriminate|].
    destruct (error (fetchTasks r s)); discriminate.
  - destruct r as [|[data|]]; split; reflexivity.
Qed.


(** ** The hook between renders *)

Lemma render_memo c :
  component_ok c →
  store (render c).2 = store c
  ∧ memo (render c).2 = Some (store c, tasksByStatus (elems (store c))).
Proof.
  intros [Hlt Hmemo]. unfold render, useMemo.
  destruct (memo c) as [[dep value]|] eqn:Hm; [|split; reflexivity].
  destruct Hmemo as (Hv & Hd & Hsame). unfold Object_is.
  destruct (bool_decide (ref dep = ref (store c))) eqn:Href; simpl; [|split; reflexivity].
  apply bool_decide_eq_true in Href. split; [reflexivity|].
  rewrite <- (Hsame Href), Hv. reflexivity.
Qed.

Lemma step_memo c e :
  component_ok c →
  memo (step c e) = Some (store (step c e), tasksByStatus (elems (store (step c e)))).
Proof.
  intros Hc. unfold step.
  set (c' := match e with
             | Rerender => c
             | Loaded subTasks => setTasks_fresh subTasks c
             | Dropped task newStatus =>
                 setTasks_fresh (moveTask task newStatus (elems (store c))) c
             | Discarded => {| store := store c; next_ref := next_ref c; memo := None |}
             end).
  assert (Hc' : component_ok c').
  { destruct e; subst c';
      [exact Hc|apply setTasks_fresh_ok, Hc|apply setTasks_fresh_ok, Hc|].
    destruct Hc as [Hlt _]. split; [exact Hlt|exact I]. }
  destruct (render_memo c' Hc') as [Hs Hm]. rewrite Hm, Hs. reflexivity.
Qed.

Lemma after_memo events :
  memo (after events)
  = Some (store (after events), tasksByStatus (elems (store (after events)))).
Proof.
  induction events as [|e es _] using rev_ind.
  - reflexivity.
  - unfold after. rewrite foldl_snoc. apply step_memo. apply after_ok.
Qed.

(** After any history of loads, drops and renders the hook remembers the
    partition of the array now in the store, and a render that was not
    caused by the store leaves the component exactly as it was: the four
    filters are not run again and the lanes keep their identity. *)
Theorem rerender_is_idle (events : list Event) :
  memo (after events)
  = Some (store (after events), tasksByStatus (elems (store (after events))))
  ∧ step (after events) Rerender = after events
  ∧ after (events ++ [Rerender]) = after events.
Proof.
  pose proof (after_memo events) as Hm.
  assert (Hidle : step (after events) Rerender = after events).
  { unfold step, render, useMemo. rewrite Hm. unfold Object_is.
    rewrite bool_decide_eq_true_2 by reflexivity. simpl.
    rewrite <- Hm. destruct (after events); reflexivity. }
  split; [exact Hm|]. split; [exact Hidle|].
  unfold after in *. rewrite foldl_snoc. exact Hidle.
Qed.

(** Every drop, even one that changes no status, puts a newly allocated
    array in the store, so the render that follows runs the four filters
    again; the lanes it computes are those of [moveTask] on the elements
    held before. *)
Theorem drop_recomputes (events : list Event) (task : Task) (newStatus : string) :
  let before := after events in
  let now := after (events ++ [Dropped task newStatus]) in
  ref (store now) ≠ ref (store before)
  ∧ Object_is (store before) (store now) = false
  ∧ elems (store now) = moveTask task newStatus (elems (store before))
  ∧ shown now = tasksByStatus (moveTask task newStatus (elems (store before))).
Proof.
  intros before now.
  assert (Hnow : now = step before (Dropped task newStatus)).
  { subst now before. unfold after. apply foldl_snoc. }
  pose proof (after_ok events) as [Hlt _]. fold before in Hlt.
  assert (Hstore : store now = mkArray (next_ref before)
                                 (moveTask task newStatus (elems (store before)))).
  { rewrite Hnow. unfold step.
    apply (render_memo (setTasks_fresh _ before)).
    apply setTasks_fresh_ok, after_ok. }
  assert (Href : ref (store now) ≠ ref (store before)).
  { rewrite Hstore. simpl. lia. }
  split; [exact Href|]. split.
  - unfold Object_is. apply bool_decide_eq_false_2. congruence.
  - split; [rewrite Hstore; reflexivity|].
    unfold shown. rewrite render_lanes by (subst now; apply after_ok).
    rewrite Hstore. reflexivity.
Qed.
